(** * Stack walkers of [ddtrace/profiling/collector/_traceback.pyx]

    A shallow embedding of the two functions of the module,
    [traceback_to_frames] and [pyframe_to_frames], and the properties of
    their results: how many descriptors are kept, which nodes they come
    from, in what order, and what the reported depth is. *)

From Stdlib Require Import ZArith List String Bool Lia.
Import ListNotations.

Set Warnings "-register-all".

Open Scope string_scope.
Open Scope list_scope.
Open Scope Z_scope.

(** ** The interpreter objects the walkers read

    Only the attributes the source touches are kept.  A reference that
    may be [None] is an [option]; Python integers are unbounded, hence
    [Z].  The chains are inductive, so they are finite and acyclic, as
    the interpreter builds them. *)

Module PyObjects.

(** A code object: [co_filename], [co_name]. *)
Record code : Type := Code {
  co_filename : string;
  co_name : string
}.

(** A frame object: [f_code], [f_lineno] (which may be [None]) and
    [f_back], the caller's frame or [None]. *)
Inductive frame : Type := Frame {
  f_code : code;
  f_lineno : option Z;
  f_back : option frame
}.

(** A traceback object: [tb_frame] and [tb_next], the next traceback
    of the chain or [None]. *)
Inductive traceback : Type := Traceback {
  tb_frame : frame;
  tb_next : option traceback
}.

End PyObjects.
Export PyObjects.

(** The tuple [(filename, lineno, function_name)] the walkers emit. *)
Definition frame_descriptor : Type := (string * Z * string)%type.

(** ** The two walkers *)

(** The [while tb is not None] loop of [traceback_to_frames], entered
    with [tb] not [None]; one unfolding is one iteration.
    [frames.insert(0, x)] is [x :: frames]. *)
Fixpoint traceback_to_frames_loop (max_nframes : Z) (tb : traceback)
    (frames : list frame_descriptor) (nframes : Z) {struct tb}
    : list frame_descriptor * Z :=
  let frames :=
    if nframes <? max_nframes then
      let frame := tb_frame tb in
      let code := f_code frame in
      let lineno := match f_lineno frame with
                    | None => 0
                    | Some l => l
                    end in
      (co_filename code, lineno, co_name code) :: frames
    else frames in
  let nframes := nframes + 1 in
  match tb_next tb with
  | None => (frames, nframes)
  | Some tb => traceback_to_frames_loop max_nframes tb frames nframes
  end.

Definition traceback_to_frames (traceback : option traceback)
    (max_nframes : Z) : list frame_descriptor * Z :=
  let tb := traceback in
  let frames : list frame_descriptor := [] in
  let nframes := 0 in
  match tb with
  | None => (frames, nframes)
  | Some tb => traceback_to_frames_loop max_nframes tb frames nframes
  end.

(** The [while frame is not None] loop of [pyframe_to_frames].
    [frames.append(x)] is [frames ++ [x]] and [len(frames)] is the
    length of the list as an integer. *)
Fixpoint pyframe_to_frames_loop (max_nframes : Z) (frame : frame)
    (frames : list frame_descriptor) (nframes : Z) {struct frame}
    : list frame_descriptor * Z :=
  let nframes := nframes + 1 in
  let frames :=
    if Z.of_nat (List.length frames) <? max_nframes then
      let code := f_code frame in
      let lineno := match f_lineno frame with
                    | None => 0
                    | Some l => l
                    end in
      frames ++ [(co_filename code, lineno, co_name code)]
    else frames in
  match f_back frame with
  | None => (frames, nframes)
  | Some frame => pyframe_to_frames_loop max_nframes frame frames nframes
  end.

Definition pyframe_to_frames (frame : option frame) (max_nframes : Z)
    : list frame_descriptor * Z :=
  let frames : list frame_descriptor := [] in
  let nframes := 0 in
  match frame with
  | None => (frames, nframes)
  | Some frame => pyframe_to_frames_loop max_nframes frame frames nframes
  end.

(** ** Vocabulary of the properties *)

(** The tuple built in the body of either loop for one frame object
    (lines 14-16 and 33-35 of the source, which are the same three
    statements). *)
Definition descriptor (fr : frame) : frame_descriptor :=
  (co_filename (f_code fr),
   match f_lineno fr with None => 0 | Some l => l end,
   co_name (f_code fr)).

(** The traceback nodes in the order the walk visits them: the head,
    then along [tb_next]. *)
Fixpoint tb_chain_from (tb : traceback) : list traceback :=
  tb :: match tb_next tb with
        | None => []
        | Some tb' => tb_chain_from tb'
        end.

Definition tb_chain (tb : option traceback) : list traceback :=
  match tb with
  | None => []
  | Some tb => tb_chain_from tb
  end.

(** The frame nodes in the order the walk visits them: the head, then
    along [f_back]. *)
Fixpoint frame_chain_from (fr : frame) : list frame :=
  fr :: match f_back fr with
        | None => []
        | Some fr' => frame_chain_from fr'
        end.

Definition frame_chain (fr : option frame) : list frame :=
  match fr with
  | None => []
  | Some fr => frame_chain_from fr
  end.

(** The frame objects a traceback walk reads, in visiting order. *)
Definition tb_frames (tb : option traceback) : list frame :=
  map tb_frame (tb_chain tb).

(** The node reached from [fr] after following [f_back] [i] times: the
    [i]-th caller outward, [fr] itself for [i = 0]. *)
Fixpoint nth_caller (i : nat) (fr : frame) : option frame :=
  match i with
  | O => Some fr
  | S i' => match f_back fr with
            | None => None
            | Some fr' => nth_caller i' fr'
            end
  end.

Definition nth_node (head : option frame) (i : nat) : option frame :=
  match head with
  | None => None
  | Some fr => nth_caller i fr
  end.

(** The node a walk over [nodes] visits last. *)
Fixpoint last_visited (nodes : list frame) : option frame :=
  match nodes with
  | [] => None
  | fr :: rest => match rest with
                  | [] => Some fr
                  | _ :: _ => last_visited rest
                  end
  end.

(** The attributes either walker reads from a node it materializes. *)
Definition node_fields (fr : frame) : string * option Z * string :=
  (co_filename (f_code fr), f_lineno fr, co_name (f_code fr)).

(** What the claims say of one emitted descriptor [d] and the node
    [fr] it was made from: path and name are the node's, the line is
    the node's unless that is [None], and then it is [0]. *)
Definition normalized (fr : frame) (d : frame_descriptor) : Prop :=
  fst (fst d) = co_filename (f_code fr) /\
  snd d = co_name (f_code fr) /\
  (f_lineno fr = None -> snd (fst d) = 0) /\
  (forall l, f_lineno fr = Some l -> snd (fst d) = l).

(** The reading of the tail-biased truncation: the descriptors of the
    last [min(total, max_nframes)] visited nodes, oldest kept first. *)
Definition tail_biased_frames (tb : option traceback) (max_nframes : Z)
    : list frame_descriptor :=
  let nodes := tb_frames tb in
  let kept := Z.to_nat (Z.min (Z.of_nat (List.length nodes)) max_nframes) in
  map descriptor (skipn (List.length nodes - kept) nodes).

(** ** Induction along a chain *)

Section ChainInduction.

Variable P : traceback -> Prop.
Hypothesis P_last : forall fr, P (Traceback fr None).
Hypothesis P_link : forall fr tb, P tb -> P (Traceback fr (Some tb)).

Fixpoint traceback_chain_ind (tb : traceback) : P tb :=
  match tb with
  | Traceback fr None => P_last fr
  | Traceback fr (Some tb') => P_link fr tb' (traceback_chain_ind tb')
  end.

End ChainInduction.

Section FrameInduction.

Variable P : frame -> Prop.
Hypothesis P_outermost : forall c l, P (Frame c l None).
Hypothesis P_caller : forall c l fr, P fr -> P (Frame c l (Some fr)).

Fixpoint frame_chain_ind (fr : frame) : P fr :=
  match fr with
  | Frame c l None => P_outermost c l
  | Frame c l (Some fr') => P_caller c l fr' (frame_chain_ind fr')
  end.

End FrameInduction.

(** ** Concrete chains *)

Module Examples.

(** Three frames [X], [Y], [Z], each called by the previous one, and
    the traceback of an exception raised in [Z] and caught in [X]; the
    walk along [tb_next] visits [X], then [Y], then [Z]. *)
Definition frame_X : frame := Frame (Code "x.py" "fx") (Some 1) None.
Definition frame_Y : frame :=
  Frame (Code "y.py" "fy") (Some 2) (Some frame_X).
Definition frame_Z : frame :=
  Frame (Code "z.py" "fz") None (Some frame_Y).

Definition chain_XYZ : option traceback :=
  Some (Traceback frame_X
          (Some (Traceback frame_Y
                   (Some (Traceback frame_Z None))))).

(** The live stack at the raise: [Z] innermost, then [Y], then [X]. *)
Definition stack_ZYX : option frame := Some frame_Z.

(** A traceback and a frame chain over the same nodes in the same
    visiting order. *)
Definition chain_ZYX : option traceback :=
  Some (Traceback frame_Z
          (Some (Traceback frame_Y
                   (Some (Traceback frame_X None))))).

End Examples.
Import Examples.

Ltac by_eval := first [ lia | vm_compute; reflexivity
                      | vm_compute; discriminate ].

(** ** The loops, from any intermediate state *)

Lemma to_nat_budget_succ (n m : Z) :
  n < m -> Z.to_nat (m - n) = S (Z.to_nat (m - (n + 1))).
Proof. intros H. rewrite <- Z2Nat.inj_succ by lia. f_equal. lia. Qed.

Lemma to_nat_budget_zero (n m : Z) : m <= n -> Z.to_nat (m - n) = 0%nat.
Proof. intros H. destruct (m - n) eqn:E; cbn; try reflexivity. lia. Qed.

(** From the state [(frames, nframes)] the traceback loop pushes, in
    front of [frames], the descriptors of the next [max_nframes - nframes]
    nodes, last visited first, and adds the number of nodes to the
    counter. *)
Lemma traceback_loop_spec (max_nframes : Z) (tb : traceback) :
  forall frames nframes,
    traceback_to_frames_loop max_nframes tb frames nframes =
    (rev (map descriptor
            (firstn (Z.to_nat (max_nframes - nframes))
                    (map tb_frame (tb_chain_from tb)))) ++ frames,
     nframes + Z.of_nat (List.length (tb_chain_from tb))).
Proof.
  induction tb using traceback_chain_ind; intros frames nframes.
  - cbn [traceback_to_frames_loop tb_chain_from tb_next tb_frame map List.length].
    destruct (Z.ltb_spec nframes max_nframes) as [Hlt | Hge].
    + rewrite (to_nat_budget_succ _ _ Hlt). cbn. f_equal.
      now rewrite firstn_nil.
    + rewrite (to_nat_budget_zero _ _ Hge). reflexivity.
  - cbn [traceback_to_frames_loop tb_chain_from tb_next tb_frame map List.length].
    rewrite IHtb.
    destruct (Z.ltb_spec nframes max_nframes) as [Hlt | Hge].
    + rewrite (to_nat_budget_succ _ _ Hlt).
      cbn [firstn map rev]. rewrite <- app_assoc. cbn [app].
      f_equal. lia.
    + rewrite (to_nat_budget_zero _ _ Hge).
      replace (Z.to_nat (max_nframes - (nframes + 1))) with 0%nat
        by (symmetry; apply to_nat_budget_zero; lia).
      cbn [firstn map rev app]. f_equal. lia.
Qed.

(** From the state [(frames, nframes)] the frame loop appends the
    descriptors of the next [max_nframes - len(frames)] nodes in
    visiting order, and adds the number of nodes to the counter. *)
Lemma pyframe_loop_spec (max_nframes : Z) (fr : frame) :
  forall frames nframes,
    pyframe_to_frames_loop max_nframes fr frames nframes =
    (frames ++
       map descriptor
         (firstn (Z.to_nat (max_nframes - Z.of_nat (List.length frames)))
                 (frame_chain_from fr)),
     nframes + Z.of_nat (List.length (frame_chain_from fr))).
Proof.
  induction fr using frame_chain_ind; intros frames nframes;
    cbn [pyframe_to_frames_loop frame_chain_from f_back f_code f_lineno
         List.length];
    [ | rewrite IHfr ];
    destruct (Z.ltb_spec (Z.of_nat (List.length frames)) max_nframes)
      as [Hlt | Hge].
  - rewrite (to_nat_budget_succ _ _ Hlt). cbn [firstn map].
    now rewrite firstn_nil.
  - rewrite (to_nat_budget_zero _ _ Hge). cbn [firstn map].
    now rewrite app_nil_r.
  - rewrite (to_nat_budget_succ _ _ Hlt). cbn [firstn map].
    rewrite length_app, Nat2Z.inj_add, <- app_assoc. cbn [List.length app].
    f_equal. lia.
  - rewrite (to_nat_budget_zero _ _ Hge).
    replace (Z.to_nat (max_nframes - Z.of_nat (List.length frames)))
      with 0%nat by (symmetry; apply to_nat_budget_zero; lia).
    cbn [firstn map]. f_equal. lia.
Qed.

(** ** The walkers as functions of the visited nodes *)

(** [traceback_to_frames] keeps the first [max_nframes] visited nodes,
    last kept first, and counts every node. *)
Lemma traceback_to_frames_spec (tb : option traceback) (max_nframes : Z) :
  traceback_to_frames tb max_nframes =
  (rev (map descriptor (firstn (Z.to_nat max_nframes) (tb_frames tb))),
   Z.of_nat (List.length (tb_frames tb))).
Proof.
  unfold traceback_to_frames, tb_frames, tb_chain.
  destruct tb as [tb | ].
  - rewrite traceback_loop_spec, app_nil_r, Z.sub_0_r, Z.add_0_l.
    now rewrite length_map.
  - now rewrite firstn_nil.
Qed.

(** [pyframe_to_frames] keeps the first [max_nframes] visited nodes in
    visiting order, and counts every node. *)
Lemma pyframe_to_frames_spec (fr : option frame) (max_nframes : Z) :
  pyframe_to_frames fr max_nframes =
  (map descriptor (firstn (Z.to_nat max_nframes) (frame_chain fr)),
   Z.of_nat (List.length (frame_chain fr))).
Proof.
  unfold pyframe_to_frames, frame_chain.
  destruct fr as [fr | ].
  - rewrite pyframe_loop_spec. cbn [List.length app].
    now rewrite Z.sub_0_r, Z.add_0_l.
  - now rewrite firstn_nil.
Qed.

Lemma tb_frames_length (tb : option traceback) :
  List.length (tb_frames tb) = List.length (tb_chain tb).
Proof. unfold tb_frames. apply length_map. Qed.

Lemma descriptor_normalized (fr : frame) : normalized fr (descriptor fr).
Proof.
  unfold normalized, descriptor; cbn [fst snd].
  repeat split.
  - intros ->; reflexivity.
  - intros l ->; reflexivity.
Qed.

Lemma length_firstn_Z {A : Type} (m : Z) (l : list A) :
  0 <= m ->
  Z.of_nat (List.length (firstn (Z.to_nat m) l)) =
  Z.min (Z.of_nat (List.length l)) m.
Proof. intros Hm. rewrite length_firstn. lia. Qed.

Lemma nth_caller_chain (fr : frame) :
  forall i, nth_error (frame_chain_from fr) i = nth_caller i fr.
Proof.
  induction fr using frame_chain_ind; intros [ | i];
    cbn [frame_chain_from nth_error nth_caller f_back]; try reflexivity.
  - now destruct i.
  - apply IHfr.
Qed.

Lemma nth_node_chain (head : option frame) (i : nat) :
  nth_error (frame_chain head) i = nth_node head i.
Proof.
  destruct head as [fr | ]; [apply nth_caller_chain | now destruct i].
Qed.

Lemma last_visited_snoc (nodes : list frame) (fr : frame) :
  last_visited (nodes ++ [fr]) = Some fr.
Proof.
  induction nodes as [ | a rest IH]; [reflexivity | ].
  cbn [app last_visited]. rewrite IH.
  now destruct rest.
Qed.

Lemma hd_error_rev_descriptors (nodes : list frame) :
  hd_error (rev (map descriptor nodes)) =
  option_map descriptor (last_visited nodes).
Proof.
  destruct nodes as [ | a rest] using rev_ind; [reflexivity | ].
  now rewrite map_app, rev_app_distr, last_visited_snoc.
Qed.

Lemma descriptors_of_fields (nodes nodes' : list frame) :
  map node_fields nodes = map node_fields nodes' ->
  map descriptor nodes = map descriptor nodes'.
Proof.
  set (emit := fun x : string * option Z * string =>
                 (fst (fst x),
                  match snd (fst x) with None => 0 | Some l => l end,
                  snd x)).
  assert (Hemit : forall l, map descriptor l = map emit (map node_fields l)).
  { intros l. rewrite map_map. apply map_ext. intros fr. reflexivity. }
  intros H. now rewrite !Hemit, H.
Qed.

Lemma firstn_same_fields (n : nat) (nodes nodes' : list frame) :
  map node_fields nodes = map node_fields nodes' ->
  map node_fields (firstn n nodes) = map node_fields (firstn n nodes').
Proof. intros H. now rewrite <- !firstn_map, H. Qed.

Lemma Forall2_normalized (nodes : list frame) :
  Forall2 normalized nodes (map descriptor nodes).
Proof.
  induction nodes as [ | a rest IH]; constructor;
    [apply descriptor_normalized | exact IH].
Qed.

(** ** Traceback walker: which nodes are kept *)

(** C1, as stated, fails on the chain [X, Y, Z] with [max_nframes = 2]:
    the chain has more nodes than the cap, the walker returns the
    descriptors of [Y] and [X], not the tail-biased [Y], [Z]; the first
    visited node is kept and the last visited one is dropped. *)
Lemma traceback_tail_biased_fails :
  2 < Z.of_nat (List.length (tb_chain chain_XYZ)) /\
  traceback_to_frames chain_XYZ 2 =
    ([("y.py", 2, "fy"); ("x.py", 1, "fx")], 3) /\
  tail_biased_frames chain_XYZ 2 = [("y.py", 2, "fy"); ("z.py", 0, "fz")] /\
  fst (traceback_to_frames chain_XYZ 2) <> tail_biased_frames chain_XYZ 2 /\
  In (descriptor frame_X) (fst (traceback_to_frames chain_XYZ 2)) /\
  ~ In (descriptor frame_Z) (fst (traceback_to_frames chain_XYZ 2)).
Proof.
  repeat split; try by_eval.
  - right; left; reflexivity.
  - vm_compute. intros [H | [H | []]]; discriminate H.
Qed.

(** C1, amended: for every traceback chain with more nodes than
    [max_nframes], the visited nodes split into a kept prefix of
    [min(total, max_nframes)] nodes and a non-empty dropped remainder;
    the result holds exactly the descriptors of the kept prefix, the
    last kept first. *)
Theorem traceback_truncation_keeps_first_visited
    (tb : option traceback) (max_nframes : Z) :
  0 <= max_nframes ->
  max_nframes < Z.of_nat (List.length (tb_chain tb)) ->
  exists kept dropped,
    tb_frames tb = kept ++ dropped /\
    Z.of_nat (List.length kept) =
      Z.min (Z.of_nat (List.length (tb_chain tb))) max_nframes /\
    dropped <> [] /\
    fst (traceback_to_frames tb max_nframes) = rev (map descriptor kept).
Proof.
  intros Hnonneg Hmore.
  exists (firstn (Z.to_nat max_nframes) (tb_frames tb)),
         (skipn (Z.to_nat max_nframes) (tb_frames tb)).
  repeat split.
  - symmetry. apply firstn_skipn.
  - rewrite length_firstn_Z by exact Hnonneg. now rewrite tb_frames_length.
  - intros Hnil. apply (f_equal (@List.length frame)) in Hnil.
    rewrite length_skipn, tb_frames_length in Hnil. cbn in Hnil. lia.
  - now rewrite traceback_to_frames_spec.
Qed.

Lemma traceback_truncation_keeps_first_visited_witness :
  0 <= 2 /\
  2 < Z.of_nat (List.length (tb_chain chain_XYZ)) /\
  exists kept dropped,
    tb_frames chain_XYZ = kept ++ dropped /\
    Z.of_nat (List.length kept) =
      Z.min (Z.of_nat (List.length (tb_chain chain_XYZ))) 2 /\
    dropped <> [] /\
    fst (traceback_to_frames chain_XYZ 2) = rev (map descriptor kept).
Proof.
  split; [by_eval | split; [by_eval | ]].
  apply (traceback_truncation_keeps_first_visited chain_XYZ 2); by_eval.
Defined.

(** C2, as stated, fails: on the chain [X, Y, Z] with [max_nframes = 2]
    the result is not [([descriptor(Y), descriptor(Z)], 3)]. *)
Lemma traceback_XYZ_not_Y_Z :
  traceback_to_frames chain_XYZ 2 <>
  ([descriptor frame_Y; descriptor frame_Z], 3).
Proof. by_eval. Qed.

(** C2, amended: for a chain of three traceback nodes whose frames are
    [X], [Y], [Z] in visiting order and [max_nframes = 2], the result is
    [([descriptor(Y), descriptor(X)], 3)]. *)
Theorem traceback_XYZ_result (X Y Z : frame) :
  traceback_to_frames
    (Some (Traceback X (Some (Traceback Y (Some (Traceback Z None))))))
    2 =
  ([descriptor Y; descriptor X], 3).
Proof. reflexivity. Qed.

(** ** Size of the result and reported depth *)

(** C3: for every chain and every [max_nframes >= 0], each walker
    returns [min(total_frame_count, max_nframes)] descriptors; with
    [max_nframes = 0] the list is empty and the count is still the
    length of the chain. *)
Theorem frames_length_is_min
    (tb : option traceback) (fr : option frame) (max_nframes : Z) :
  0 <= max_nframes ->
  (Z.of_nat (List.length (fst (traceback_to_frames tb max_nframes))) =
     Z.min (snd (traceback_to_frames tb max_nframes)) max_nframes /\
   Z.of_nat (List.length (fst (pyframe_to_frames fr max_nframes))) =
     Z.min (snd (pyframe_to_frames fr max_nframes)) max_nframes) /\
  (traceback_to_frames tb 0 = ([], Z.of_nat (List.length (tb_chain tb))) /\
   pyframe_to_frames fr 0 = ([], Z.of_nat (List.length (frame_chain fr)))).
Proof.
  intros Hnonneg.
  rewrite !traceback_to_frames_spec, !pyframe_to_frames_spec.
  cbn [fst snd Z.to_nat firstn map rev].
  rewrite length_rev, !length_map, !length_firstn_Z by exact Hnonneg.
  now rewrite tb_frames_length.
Qed.

Lemma frames_length_is_min_witness :
  0 <= 2 /\
  (Z.of_nat (List.length (fst (traceback_to_frames chain_XYZ 2))) =
     Z.min (snd (traceback_to_frames chain_XYZ 2)) 2 /\
   Z.of_nat (List.length (fst (pyframe_to_frames stack_ZYX 2))) =
     Z.min (snd (pyframe_to_frames stack_ZYX 2)) 2) /\
  (traceback_to_frames chain_XYZ 0 =
     ([], Z.of_nat (List.length (tb_chain chain_XYZ))) /\
   pyframe_to_frames stack_ZYX 0 =
     ([], Z.of_nat (List.length (frame_chain stack_ZYX)))).
Proof.
  split; [by_eval | ].
  apply (frames_length_is_min chain_XYZ stack_ZYX 2); by_eval.
Defined.

(** C4: the count returned by each walker is the number of nodes of the
    chain, whatever [max_nframes] is, hence the same for any two caps. *)
Theorem total_frame_count_is_chain_length
    (tb : option traceback) (fr : option frame) (max_nframes : Z) :
  (snd (traceback_to_frames tb max_nframes) =
     Z.of_nat (List.length (tb_chain tb)) /\
   snd (pyframe_to_frames fr max_nframes) =
     Z.of_nat (List.length (frame_chain fr))) /\
  (forall max_nframes',
     snd (traceback_to_frames tb max_nframes) =
       snd (traceback_to_frames tb max_nframes') /\
     snd (pyframe_to_frames fr max_nframes) =
       snd (pyframe_to_frames fr max_nframes')).
Proof.
  split; [ | intros max_nframes'];
    rewrite !traceback_to_frames_spec, !pyframe_to_frames_spec;
    cbn [snd]; rewrite ?tb_frames_length; split; reflexivity.
Qed.

(** ** Frame walker: order and truncation *)

(** C5: for every frame chain and [max_nframes >= 0], [frames[i]] is the
    descriptor of the node reached from the head by [i] caller links,
    for every [i < len(frames)]; the frames are those of the first
    [max_nframes] nodes met, in that order, and every node is counted.
    On the two-node chain [A -> B] with [max_nframes = 1] the result is
    [([("a.py", 10, "foo")], 2)]. *)
Theorem pyframe_order_and_truncation
    (head : option frame) (max_nframes : Z) :
  0 <= max_nframes ->
  let frames := fst (pyframe_to_frames head max_nframes) in
  (forall i, (i < List.length frames)%nat ->
     exists node,
       nth_node head i = Some node /\
       nth_error frames i = Some (descriptor node)) /\
  frames =
    map descriptor (firstn (Z.to_nat max_nframes) (frame_chain head)) /\
  Z.of_nat (List.length frames) =
    Z.min (Z.of_nat (List.length (frame_chain head))) max_nframes /\
  snd (pyframe_to_frames head max_nframes) =
    Z.of_nat (List.length (frame_chain head)) /\
  (forall B_code B_lineno,
     pyframe_to_frames
       (Some (Frame (Code "a.py" "foo") (Some 10)
                (Some (Frame B_code B_lineno None)))) 1 =
     ([("a.py", 10, "foo")], 2)).
Proof.
  intros Hnonneg frames. subst frames.
  rewrite pyframe_to_frames_spec. cbn [fst snd].
  repeat split.
  - intros i Hi.
    rewrite length_map, length_firstn in Hi.
    rewrite nth_error_map, nth_error_firstn.
    destruct (Nat.ltb_spec i (Z.to_nat max_nframes)) as [_ | Hge]; [ | lia].
    rewrite <- nth_node_chain.
    destruct (nth_error (frame_chain head) i) as [node | ] eqn:Hnth.
    + exists node. now split.
    + apply nth_error_None in Hnth. lia.
  - rewrite length_map. now apply length_firstn_Z.
Qed.

Lemma pyframe_order_and_truncation_witness :
  0 <= 2 /\
  nth_error (fst (pyframe_to_frames stack_ZYX 2)) 1 =
    Some (descriptor frame_Y) /\
  pyframe_to_frames stack_ZYX 2 = ([("z.py", 0, "fz"); ("y.py", 2, "fy")], 3).
Proof.
  split; [by_eval | ].
  destruct (pyframe_order_and_truncation stack_ZYX 2 ltac:(lia))
    as (Hnth & _).
  destruct (Hnth 1%nat ltac:(vm_compute; lia)) as (node & Hnode & Hframe).
  injection Hnode as <-.
  split; [exact Hframe | reflexivity].
Defined.

(** ** Traceback walker: order *)

(** C6, as stated, fails on the chain [X, Y, Z] with [max_nframes = 2]:
    the node walked last is [Z], and the result starts with the
    descriptor of [Y]. *)
Lemma traceback_last_walked_not_first :
  last_visited (tb_frames chain_XYZ) = Some frame_Z /\
  hd_error (fst (traceback_to_frames chain_XYZ 2)) =
    Some (descriptor frame_Y) /\
  hd_error (fst (traceback_to_frames chain_XYZ 2)) <>
    option_map descriptor (last_visited (tb_frames chain_XYZ)).
Proof. repeat split; by_eval. Qed.

(** C6, amended: for every traceback chain and [max_nframes >= 0], the
    frames list is the retained nodes' descriptors in the reverse of the
    order they were met, the retained nodes being the first
    [max_nframes] visited; so the retained node walked last comes first,
    and it is the last node of the chain when the chain has at most
    [max_nframes] nodes. *)
Theorem traceback_order_is_reversed_walk
    (tb : option traceback) (max_nframes : Z) :
  0 <= max_nframes ->
  let retained := firstn (Z.to_nat max_nframes) (tb_frames tb) in
  let frames := fst (traceback_to_frames tb max_nframes) in
  frames = rev (map descriptor retained) /\
  hd_error frames = option_map descriptor (last_visited retained) /\
  (Z.of_nat (List.length (tb_chain tb)) <= max_nframes ->
   hd_error frames = option_map descriptor (last_visited (tb_frames tb))).
Proof.
  intros Hnonneg retained frames. subst retained frames.
  rewrite traceback_to_frames_spec. cbn [fst].
  split; [reflexivity | split].
  - apply hd_error_rev_descriptors.
  - intros Hall. rewrite firstn_all2 by (rewrite tb_frames_length; lia).
    apply hd_error_rev_descriptors.
Qed.

Lemma traceback_order_is_reversed_walk_witness :
  0 <= 3 /\
  Z.of_nat (List.length (tb_chain chain_XYZ)) <= 3 /\
  fst (traceback_to_frames chain_XYZ 3) =
    rev (map descriptor (firstn 3 (tb_frames chain_XYZ))) /\
  hd_error (fst (traceback_to_frames chain_XYZ 3)) =
    option_map descriptor (last_visited (tb_frames chain_XYZ)).
Proof.
  split; [by_eval | split; [by_eval | ]].
  destruct (traceback_order_is_reversed_walk chain_XYZ 3 ltac:(lia))
    as (Hrev & _ & Hlast).
  split; [exact Hrev | apply Hlast; by_eval].
Defined.

(** ** Descriptor extraction *)

(** C7: every descriptor either walker emits is made from the node at
    the matching position of the walk, with that node's path and
    function name, and with that node's line number, or [0] when the
    line number is [None]; nothing else is changed. *)
Theorem emitted_descriptors_normalized
    (tb : option traceback) (fr : option frame) (max_nframes : Z) :
  Forall2 normalized
    (rev (firstn (Z.to_nat max_nframes) (tb_frames tb)))
    (fst (traceback_to_frames tb max_nframes)) /\
  Forall2 normalized
    (firstn (Z.to_nat max_nframes) (frame_chain fr))
    (fst (pyframe_to_frames fr max_nframes)) /\
  (forall node d, normalized node d ->
     d = (co_filename (f_code node),
          match f_lineno node with None => 0 | Some l => l end,
          co_name (f_code node))).
Proof.
  rewrite traceback_to_frames_spec, pyframe_to_frames_spec. cbn [fst].
  rewrite <- map_rev.
  split; [ | split]; try apply Forall2_normalized.
  intros node [[file line] name] (Hfile & Hname & Hnone & Hsome).
  cbn [fst snd] in *. subst file name. f_equal; f_equal.
  destruct (f_lineno node) as [l | ]; [now apply Hsome | now apply Hnone].
Qed.

Lemma emitted_descriptors_normalized_witness :
  normalized frame_Z ("z.py", 0, "fz") /\
  ("z.py", 0, "fz") = descriptor frame_Z /\
  Forall2 normalized
    (rev (firstn 2 (tb_frames chain_XYZ)))
    (fst (traceback_to_frames chain_XYZ 2)).
Proof.
  assert (Hz : normalized frame_Z ("z.py", 0, "fz")).
  { unfold normalized; cbn. repeat split. intros l Hl; discriminate Hl. }
  destruct (emitted_descriptors_normalized chain_XYZ stack_ZYX 2)
    as (Htb & _ & Honly).
  split; [exact Hz | split; [exact (Honly _ _ Hz) | exact Htb]].
Defined.

(** ** Empty chain *)

(** C8: on a [None] chain head, either walker returns [([], 0)] for
    every [max_nframes]. *)
Theorem empty_chain_result (max_nframes : Z) :
  traceback_to_frames None max_nframes = ([], 0) /\
  pyframe_to_frames None max_nframes = ([], 0).
Proof. split; reflexivity. Qed.

(** ** The two walkers on the same nodes *)

(** C9: when a traceback chain and a frame chain present the same
    sequence of nodes to the walk and [max_nframes >= 0], the two
    frames lists are reverses of each other, both made of the first
    [min(total, max_nframes)] visited nodes, and the counts agree. *)
Theorem walkers_agree_up_to_reversal
    (tb : option traceback) (fr : option frame) (max_nframes : Z) :
  0 <= max_nframes ->
  map node_fields (tb_frames tb) = map node_fields (frame_chain fr) ->
  let kept :=
    Z.to_nat (Z.min (Z.of_nat (List.length (frame_chain fr))) max_nframes) in
  fst (traceback_to_frames tb max_nframes) =
    rev (fst (pyframe_to_frames fr max_nframes)) /\
  fst (pyframe_to_frames fr max_nframes) =
    map descriptor (firstn kept (frame_chain fr)) /\
  fst (traceback_to_frames tb max_nframes) =
    rev (map descriptor (firstn kept (tb_frames tb))) /\
  snd (traceback_to_frames tb max_nframes) =
    snd (pyframe_to_frames fr max_nframes).
Proof.
  intros Hnonneg Hsame kept.
  assert (Hlen : List.length (tb_frames tb) = List.length (frame_chain fr)).
  { apply (f_equal (@List.length _)) in Hsame.
    now rewrite !length_map in Hsame. }
  assert (Hkept : forall nodes : list frame,
             List.length nodes = List.length (frame_chain fr) ->
             firstn kept nodes = firstn (Z.to_nat max_nframes) nodes).
  { intros nodes Hnodes. subst kept.
    destruct (Z.le_ge_cases (Z.of_nat (List.length (frame_chain fr)))
                max_nframes) as [Hall | Hcut].
    - rewrite Z.min_l, Nat2Z.id by exact Hall.
      rewrite !firstn_all2 by lia. reflexivity.
    - now rewrite Z.min_r by exact Hcut. }
  rewrite traceback_to_frames_spec, pyframe_to_frames_spec. cbn [fst snd].
  rewrite !Hkept by congruence.
  repeat split.
  - f_equal. apply descriptors_of_fields. now apply firstn_same_fields.
  - now rewrite Hlen.
Qed.

Lemma walkers_agree_up_to_reversal_witness :
  0 <= 2 /\
  map node_fields (tb_frames chain_ZYX) =
    map node_fields (frame_chain stack_ZYX) /\
  fst (traceback_to_frames chain_ZYX 2) =
    rev (fst (pyframe_to_frames stack_ZYX 2)) /\
  snd (traceback_to_frames chain_ZYX 2) =
    snd (pyframe_to_frames stack_ZYX 2).
Proof.
  split; [by_eval | split; [by_eval | ]].
  destruct (walkers_agree_up_to_reversal chain_ZYX stack_ZYX 2
              ltac:(lia) ltac:(vm_compute; reflexivity))
    as (Hrev & _ & _ & Hcount).
  split; [exact Hrev | exact Hcount].
Defined.

(** ** Negative cap *)

(** C10: for every chain and every negative [max_nframes], either
    walker returns an empty frames list and the number of nodes of the
    chain. *)
Theorem negative_cap_result
    (tb : option traceback) (fr : option frame) (max_nframes : Z) :
  max_nframes < 0 ->
  traceback_to_frames tb max_nframes =
    ([], Z.of_nat (List.length (tb_chain tb))) /\
  pyframe_to_frames fr max_nframes =
    ([], Z.of_nat (List.length (frame_chain fr))).
Proof.
  intros Hneg.
  rewrite traceback_to_frames_spec, pyframe_to_frames_spec.
  replace (Z.to_nat max_nframes) with 0%nat by lia. cbn [firstn map rev].
  now rewrite tb_frames_length.
Qed.

Lemma negative_cap_result_witness :
  -1 < 0 /\
  traceback_to_frames chain_XYZ (-1) =
    ([], Z.of_nat (List.length (tb_chain chain_XYZ))) /\
  pyframe_to_frames stack_ZYX (-1) =
    ([], Z.of_nat (List.length (frame_chain stack_ZYX))).
Proof.
  split; [by_eval | ].
  apply (negative_cap_result chain_XYZ stack_ZYX (-1)); by_eval.
Defined.

(** ** Further properties of the walkers *)

Lemma firstn_to_nat_le {A : Type} (m m' : Z) (l : list A) :
  m <= m' ->
  firstn (Z.to_nat m) (firstn (Z.to_nat m') l) = firstn (Z.to_nat m) l.
Proof. intros Hle. rewrite firstn_firstn. f_equal. lia. Qed.

Lemma firstn_past_length {A : Type} (m : Z) (l : list A) :
  Z.of_nat (List.length l) <= m -> firstn (Z.to_nat m) l = l.
Proof. intros Hall. apply firstn_all2. lia. Qed.

(** X1: lowering the cap only cuts the result.  For [m <= m'], the
    frame walker's list under cap [m] is the first [m] entries of its
    list under cap [m'], and the traceback walker's list under cap [m]
    is the last [m] entries of its list under cap [m']; the counts are
    the same. *)
Theorem smaller_cap_cuts_result
    (tb : option traceback) (fr : option frame) (m m' : Z) :
  m <= m' ->
  let wide_py := fst (pyframe_to_frames fr m') in
  let wide_tb := fst (traceback_to_frames tb m') in
  fst (pyframe_to_frames fr m) = firstn (Z.to_nat m) wide_py /\
  fst (traceback_to_frames tb m) =
    skipn (List.length wide_tb - Z.to_nat m) wide_tb /\
  snd (pyframe_to_frames fr m) = snd (pyframe_to_frames fr m') /\
  snd (traceback_to_frames tb m) = snd (traceback_to_frames tb m').
Proof.
  intros Hle wide_py wide_tb. subst wide_py wide_tb.
  rewrite !traceback_to_frames_spec, !pyframe_to_frames_spec.
  cbn [fst snd].
  split; [ | split; [ | split; reflexivity]].
  - now rewrite firstn_map, firstn_to_nat_le.
  - rewrite skipn_rev, length_rev. f_equal.
    set (wide := map descriptor (firstn (Z.to_nat m') (tb_frames tb))).
    replace (firstn (List.length wide - (List.length wide - Z.to_nat m)) wide)
      with (firstn (Z.to_nat m) wide).
    + subst wide. now rewrite firstn_map, firstn_to_nat_le.
    + destruct (Nat.le_ge_cases (Z.to_nat m) (List.length wide)) as [Hin | Hout].
      * f_equal. lia.
      * rewrite !firstn_all2 by lia. reflexivity.
Qed.

Lemma smaller_cap_cuts_result_witness :
  1 <= 2 /\
  fst (pyframe_to_frames stack_ZYX 1) =
    firstn 1 (fst (pyframe_to_frames stack_ZYX 2)) /\
  fst (traceback_to_frames chain_XYZ 1) =
    skipn 1 (fst (traceback_to_frames chain_XYZ 2)).
Proof.
  split; [by_eval | ].
  destruct (smaller_cap_cuts_result chain_XYZ stack_ZYX 1 2 ltac:(lia))
    as (Hpy & Htb & _).
  split; [exact Hpy | exact Htb].
Defined.

(** X2: a cap that is at least the depth of the chain truncates
    nothing.  The frame walker returns the descriptor of every node in
    visiting order, the traceback walker the descriptor of every node
    in reverse visiting order, and any larger cap gives the same
    results. *)
Theorem large_cap_keeps_every_node
    (tb : option traceback) (fr : option frame) (max_nframes : Z) :
  Z.of_nat (List.length (tb_chain tb)) <= max_nframes ->
  Z.of_nat (List.length (frame_chain fr)) <= max_nframes ->
  traceback_to_frames tb max_nframes =
    (rev (map descriptor (tb_frames tb)),
     Z.of_nat (List.length (tb_chain tb))) /\
  pyframe_to_frames fr max_nframes =
    (map descriptor (frame_chain fr),
     Z.of_nat (List.length (frame_chain fr))) /\
  (forall larger, max_nframes <= larger ->
     traceback_to_frames tb larger = traceback_to_frames tb max_nframes /\
     pyframe_to_frames fr larger = pyframe_to_frames fr max_nframes).
Proof.
  intros Htb Hfr.
  assert (Htb' : Z.of_nat (List.length (tb_frames tb)) <= max_nframes)
    by now rewrite tb_frames_length.
  split; [ | split; [ | intros larger Hlarger; split]];
    rewrite ?traceback_to_frames_spec, ?pyframe_to_frames_spec;
    rewrite ?(firstn_past_length max_nframes) by assumption;
    rewrite ?(firstn_past_length larger) by lia;
    now rewrite ?tb_frames_length.
Qed.

Lemma large_cap_keeps_every_node_witness :
  Z.of_nat (List.length (tb_chain chain_XYZ)) <= 3 /\
  Z.of_nat (List.length (frame_chain stack_ZYX)) <= 3 /\
  traceback_to_frames chain_XYZ 3 =
    (rev (map descriptor (tb_frames chain_XYZ)),
     Z.of_nat (List.length (tb_chain chain_XYZ))) /\
  pyframe_to_frames stack_ZYX 3 =
    (map descriptor (frame_chain stack_ZYX),
     Z.of_nat (List.length (frame_chain stack_ZYX))).
Proof.
  split; [by_eval | split; [by_eval | ]].
  destruct (large_cap_keeps_every_node chain_XYZ stack_ZYX 3
              ltac:(by_eval) ltac:(by_eval)) as (Htb & Hpy & _).
  split; [exact Htb | exact Hpy].
Defined.

(** X3: for a non-negative cap, a caller sees that frames were dropped
    by comparing the two components of the result: the list is shorter
    than the count exactly when the chain is deeper than the cap. *)
Theorem truncation_is_detectable
    (tb : option traceback) (fr : option frame) (max_nframes : Z) :
  0 <= max_nframes ->
  (Z.of_nat (List.length (fst (traceback_to_frames tb max_nframes))) <
     snd (traceback_to_frames tb max_nframes) <->
   max_nframes < Z.of_nat (List.length (tb_chain tb))) /\
  (Z.of_nat (List.length (fst (pyframe_to_frames fr max_nframes))) <
     snd (pyframe_to_frames fr max_nframes) <->
   max_nframes < Z.of_nat (List.length (frame_chain fr))).
Proof.
  intros Hnonneg.
  rewrite traceback_to_frames_spec, pyframe_to_frames_spec. cbn [fst snd].
  rewrite length_rev, !length_map, !length_firstn_Z by exact Hnonneg.
  rewrite tb_frames_length. lia.
Qed.

Lemma truncation_is_detectable_witness :
  0 <= 2 /\
  Z.of_nat (List.length (fst (traceback_to_frames chain_XYZ 2))) <
    snd (traceback_to_frames chain_XYZ 2) /\
  Z.of_nat (List.length (fst (pyframe_to_frames stack_ZYX 2))) <
    snd (pyframe_to_frames stack_ZYX 2).
Proof.
  split; [by_eval | ].
  destruct (truncation_is_detectable chain_XYZ stack_ZYX 2 ltac:(lia))
    as (Htb & Hpy).
  split; [apply Htb; by_eval | apply Hpy; by_eval].
Defined.

(** X4: how a result grows with the chain.  Putting one node in front
    of a chain adds one to the count; when the cap is positive the
    node's descriptor is added, at the end of the traceback walker's
    list and at the start of the frame walker's, to what the rest of
    the chain gives under the cap minus one. *)
Theorem walkers_unfold_at_head
    (node : frame) (rest : option traceback)
    (c : code) (l : option Z) (back : option frame) (max_nframes : Z) :
  traceback_to_frames (Some (Traceback node rest)) max_nframes =
    (if 0 <? max_nframes
     then fst (traceback_to_frames rest (max_nframes - 1))
            ++ [descriptor node]
     else [],
     snd (traceback_to_frames rest (max_nframes - 1)) + 1) /\
  pyframe_to_frames (Some (Frame c l back)) max_nframes =
    (if 0 <? max_nframes
     then descriptor (Frame c l back)
            :: fst (pyframe_to_frames back (max_nframes - 1))
     else [],
     snd (pyframe_to_frames back (max_nframes - 1)) + 1).
Proof.
  rewrite !traceback_to_frames_spec, !pyframe_to_frames_spec.
  cbn [fst snd].
  assert (Htb : tb_frames (Some (Traceback node rest)) =
                node :: tb_frames rest)
    by (unfold tb_frames; destruct rest; reflexivity).
  assert (Hfr : frame_chain (Some (Frame c l back)) =
                Frame c l back :: frame_chain back)
    by (destruct back; reflexivity).
  rewrite Htb, Hfr. cbn [List.length].
  destruct (Z.ltb_spec 0 max_nframes) as [Hpos | Hnonpos].
  - replace (Z.to_nat max_nframes) with (S (Z.to_nat (max_nframes - 1)))
      by lia.
    cbn [firstn map rev]. split; f_equal; lia.
  - replace (Z.to_nat max_nframes) with 0%nat by lia.
    cbn [firstn map rev]. split; f_equal; lia.
Qed.

(** X5: what an empty result means.  The count is [0] only for a
    [None] head, and the frames list is empty only for a [None] head or
    a cap that is not positive. *)
Theorem empty_results_characterized
    (tb : option traceback) (fr : option frame) (max_nframes : Z) :
  (snd (traceback_to_frames tb max_nframes) = 0 <-> tb = None) /\
  (snd (pyframe_to_frames fr max_nframes) = 0 <-> fr = None) /\
  (fst (traceback_to_frames tb max_nframes) = [] <->
   tb = None \/ max_nframes <= 0) /\
  (fst (pyframe_to_frames fr max_nframes) = [] <->
   fr = None \/ max_nframes <= 0).
Proof.
  assert (Hempty : forall (A : Type) (n : nat) (nodes : list A),
             firstn n nodes = [] <-> nodes = [] \/ n = 0%nat).
  { intros A [ | n] [ | a nodes]; cbn; split; intros H; auto;
      try discriminate; destruct H; discriminate. }
  assert (Htb : tb_frames tb = [] <-> tb = None).
  { destruct tb as [[node rest] | ]; cbn; split; intros H;
      (reflexivity || discriminate). }
  assert (Hfr : frame_chain fr = [] <-> fr = None).
  { destruct fr as [[c l back] | ]; cbn; split; intros H;
      (reflexivity || discriminate). }
  rewrite traceback_to_frames_spec, pyframe_to_frames_spec. cbn [fst snd].
  repeat split; intros H.
  - apply Htb, length_zero_iff_nil. lia.
  - subst tb. reflexivity.
  - apply Hfr, length_zero_iff_nil. lia.
  - subst fr. reflexivity.
  - apply (f_equal (@rev _)) in H. rewrite rev_involutive in H.
    apply map_eq_nil, Hempty in H. destruct H; [left; tauto | right; lia].
  - replace (firstn (Z.to_nat max_nframes) (tb_frames tb)) with (@nil frame);
      [reflexivity | symmetry; apply Hempty].
    destruct H; [left; tauto | right; lia].
  - apply map_eq_nil, Hempty in H. destruct H; [left; tauto | right; lia].
  - replace (firstn (Z.to_nat max_nframes) (frame_chain fr)) with (@nil frame);
      [reflexivity | symmetry; apply Hempty].
    destruct H; [left; tauto | right; lia].
Qed.

Lemma rev_descriptors_of_reversed_fields (kept : list frame)
    (nodes : list frame) :
  map node_fields kept = rev (map node_fields nodes) ->
  rev (map descriptor kept) = map descriptor nodes.
Proof.
  intros Hrev. rewrite <- map_rev. apply descriptors_of_fields.
  now rewrite map_rev, Hrev, rev_involutive.
Qed.

(** X6: why the traceback walker inserts at the front.  When the
    traceback visits the nodes of a frame chain in the opposite order
    (catch site first, raise site last, against raise site first along
    the caller links) and the cap is at least the depth, the two
    walkers return the same result. *)
Theorem walkers_agree_on_opposite_walks
    (tb : option traceback) (fr : option frame) (max_nframes : Z) :
  map node_fields (tb_frames tb) = rev (map node_fields (frame_chain fr)) ->
  Z.of_nat (List.length (frame_chain fr)) <= max_nframes ->
  traceback_to_frames tb max_nframes = pyframe_to_frames fr max_nframes.
Proof.
  intros Hopp Hall.
  assert (Hlen : List.length (tb_frames tb) = List.length (frame_chain fr)).
  { apply (f_equal (@List.length _)) in Hopp.
    now rewrite length_rev, !length_map in Hopp. }
  rewrite traceback_to_frames_spec, pyframe_to_frames_spec.
  rewrite !firstn_past_length by lia.
  f_equal; [now apply rev_descriptors_of_reversed_fields | now rewrite Hlen].
Qed.

Lemma walkers_agree_on_opposite_walks_witness :
  map node_fields (tb_frames chain_XYZ) =
    rev (map node_fields (frame_chain stack_ZYX)) /\
  Z.of_nat (List.length (frame_chain stack_ZYX)) <= 3 /\
  traceback_to_frames chain_XYZ 3 = pyframe_to_frames stack_ZYX 3.
Proof.
  split; [by_eval | split; [by_eval | ]].
  apply (walkers_agree_on_opposite_walks chain_XYZ stack_ZYX 3); by_eval.
Defined.

(** X7: on opposite walks of the same nodes the two truncations keep
    opposite ends.  Both lists are in the frame chain's order, but the
    frame walker keeps the chain's first [max_nframes] nodes (nearest
    the raise site) and the traceback walker its last [max_nframes]
    nodes (nearest the catch site). *)
Theorem truncations_keep_opposite_ends
    (tb : option traceback) (fr : option frame) (max_nframes : Z) :
  map node_fields (tb_frames tb) = rev (map node_fields (frame_chain fr)) ->
  let nodes := frame_chain fr in
  fst (pyframe_to_frames fr max_nframes) =
    map descriptor (firstn (Z.to_nat max_nframes) nodes) /\
  fst (traceback_to_frames tb max_nframes) =
    map descriptor
      (skipn (List.length nodes - Z.to_nat max_nframes) nodes).
Proof.
  intros Hopp nodes. subst nodes.
  rewrite traceback_to_frames_spec, pyframe_to_frames_spec. cbn [fst].
  split; [reflexivity | ].
  apply rev_descriptors_of_reversed_fields.
  rewrite <- firstn_map, Hopp, firstn_rev, length_map.
  now rewrite skipn_map.
Qed.

Lemma truncations_keep_opposite_ends_witness :
  map node_fields (tb_frames chain_XYZ) =
    rev (map node_fields (frame_chain stack_ZYX)) /\
  fst (pyframe_to_frames stack_ZYX 2) =
    [descriptor frame_Z; descriptor frame_Y] /\
  fst (traceback_to_frames chain_XYZ 2) =
    [descriptor frame_Y; descriptor frame_X].
Proof.
  split; [by_eval | ].
  apply (truncations_keep_opposite_ends chain_XYZ stack_ZYX 2); by_eval.
Defined.

(** X8: the substitution of [0] for a missing line number keeps line
    numbers non-negative.  When no node of the chain carries a negative
    line number, no descriptor in either result does. *)
Theorem emitted_linenos_nonnegative
    (tb : option traceback) (fr : option frame) (max_nframes : Z) :
  Forall (fun node => forall l, f_lineno node = Some l -> 0 <= l)
         (tb_frames tb) ->
  Forall (fun node => forall l, f_lineno node = Some l -> 0 <= l)
         (frame_chain fr) ->
  Forall (fun d : frame_descriptor => 0 <= snd (fst d))
         (fst (traceback_to_frames tb max_nframes)) /\
  Forall (fun d : frame_descriptor => 0 <= snd (fst d))
         (fst (pyframe_to_frames fr max_nframes)).
Proof.
  assert (Hkept : forall (n : nat) (nodes : list frame),
             Forall (fun node => forall l, f_lineno node = Some l -> 0 <= l)
                    nodes ->
             Forall (fun d : frame_descriptor => 0 <= snd (fst d))
                    (map descriptor (firstn n nodes))).
  { intros n nodes Hnodes. apply Forall_map.
    rewrite <- (firstn_skipn n nodes) in Hnodes.
    apply Forall_app in Hnodes. destruct Hnodes as [Hfirst _].
    revert Hfirst. apply Forall_impl. intros node Hnode.
    unfold descriptor; cbn [fst snd].
    destruct (f_lineno node) as [l | ]; [now apply Hnode | lia]. }
  intros Htb Hfr.
  rewrite traceback_to_frames_spec, pyframe_to_frames_spec. cbn [fst].
  split; [apply Forall_rev | ]; now apply Hkept.
Qed.

Lemma emitted_linenos_nonnegative_witness :
  Forall (fun node => forall l, f_lineno node = Some l -> 0 <= l)
         (tb_frames chain_XYZ) /\
  Forall (fun node => forall l, f_lineno node = Some l -> 0 <= l)
         (frame_chain stack_ZYX) /\
  Forall (fun d : frame_descriptor => 0 <= snd (fst d))
         (fst (traceback_to_frames chain_XYZ 2)) /\
  Forall (fun d : frame_descriptor => 0 <= snd (fst d))
         (fst (pyframe_to_frames stack_ZYX 2)).
Proof.
  assert (Htb : Forall (fun node => forall l, f_lineno node = Some l -> 0 <= l)
                       (tb_frames chain_XYZ)).
  { repeat constructor; cbn; intros l Hl;
      first [discriminate Hl | injection Hl as <-; lia]. }
  assert (Hfr : Forall (fun node => forall l, f_lineno node = Some l -> 0 <= l)
                       (frame_chain stack_ZYX)).
  { repeat constructor; cbn; intros l Hl;
      first [discriminate Hl | injection Hl as <-; lia]. }
  split; [exact Htb | split; [exact Hfr | ]].
  exact (emitted_linenos_nonnegative chain_XYZ stack_ZYX 2 Htb Hfr).
Defined.
